(** * WebGLViewer3: the matrix math, the render procedure and the zoom handler
    of [src/script.js], embedded in Rocq.

    The script computes with JavaScript numbers.  Its functions are written
    once, over an interface [Number] of the arithmetic they use, and read in
    two number systems:

    - [R], exact arithmetic, in which the algebraic properties of the
      vector and matrix helpers are stated;
    - [float], IEEE 754 binary64 as the kernel's primitive floats compute
      it, which is what a JavaScript engine executes, with the rounding to
      binary32 a [Float32Array] applies to each element it stores. *)

From Stdlib Require Import ZArith List String Bool Lia.
From Stdlib Require Import Reals Lra.
From Stdlib Require Import Floats.
From Stdlib Require Uint63.
Import ListNotations.

Set Implicit Arguments.

(** ** The arithmetic of the script *)

Declare Scope num_scope.
Delimit Scope num_scope with num.

Class Number (T : Type) : Type := {
  lit    : Z -> T;          (* an integer literal: 0, 1, 2, 5, 10 *)
  add    : T -> T -> T;     (* a + b *)
  sub    : T -> T -> T;     (* a - b *)
  mul    : T -> T -> T;     (* a * b *)
  div    : T -> T -> T;     (* a / b *)
  neg    : T -> T;          (* -a *)
  pow2   : T -> T;          (* a ** 2 *)
  sqrt   : T -> T;          (* Math.sqrt(a) *)
  fround : T -> T           (* the value a Float32Array element holds after a store *)
}.

Infix "+" := add : num_scope.
Infix "-" := sub : num_scope.
Infix "*" := mul : num_scope.
Infix "/" := div : num_scope.
Notation "- x" := (neg x) : num_scope.

(** Exact arithmetic.  A store into a typed array loses nothing here. *)
#[export] Instance RealNumber : Number R := {|
  lit    := IZR;
  add    := Rplus;
  sub    := Rminus;
  mul    := Rmult;
  div    := Rdiv;
  neg    := Ropp;
  pow2   := fun x => (x ^ 2)%R;
  sqrt   := R_sqrt.sqrt;
  fround := fun x => x
|}.

Module Binary64.

(** An integer literal of the script as a double.  The literals of the
    script are far below 2^53, where the conversion is exact. *)
Definition of_Z (z : Z) : float :=
  match z with
  | Z0 => PrimFloat.zero
  | Zpos _ => PrimFloat.of_uint63 (Uint63.of_Z z)
  | Zneg p => PrimFloat.opp (PrimFloat.of_uint63 (Uint63.of_Z (Zpos p)))
  end.

(** Round-to-nearest-even from binary64 to binary32 (24 bits of
    precision, exponents up to 128), kept as a double: the value read
    back from a [Float32Array] element.  Infinities and NaN pass. *)
Definition to_float32 (x : float) : float :=
  match Prim2SF x with
  | S754_finite s m e =>
      SF2Prim (binary_normalize 24 128 (cond_Zopp s (Zpos m)) e s)
  | _ => x
  end.

(** [x ** 2] is taken as the correctly rounded square, which is what an
    engine returns for the exponent 2. *)
Definition square (x : float) : float := PrimFloat.mul x x.

End Binary64.

#[export] Instance FloatNumber : Number float := {|
  lit    := Binary64.of_Z;
  add    := PrimFloat.add;
  sub    := PrimFloat.sub;
  mul    := PrimFloat.mul;
  div    := PrimFloat.div;
  neg    := PrimFloat.opp;
  pow2   := Binary64.square;
  sqrt   := PrimFloat.sqrt;
  fround := Binary64.to_float32
|}.

(** ** Data *)

(** A three-component array [[v0, v1, v2]]. *)
Record vec3 (T : Type) : Type := Vec3 { c0 : T; c1 : T; c2 : T }.

(** A four-component homogeneous point, the shader's [vec4]. *)
Record vec4 (T : Type) : Type := Vec4 { px : T; py : T; pz : T; pw : T }.

(** A [Float32Array] of sixteen elements, column after column. *)
Definition mat4 (T : Type) : Type := list T.

(** [v.map(f)] on a three-component array. *)
Definition vec3_map {T U : Type} (f : T -> U) (v : vec3 T) : vec3 U :=
  Vec3 (f (c0 v)) (f (c1 v)) (f (c2 v)).

(** [v[2] = x], the in-place store of the handler. *)
Definition vec3_set2 {T : Type} (v : vec3 T) (x : T) : vec3 T :=
  Vec3 (c0 v) (c1 v) x.

Section Math.

Context {T : Type} {N : Number T}.
Local Open Scope num_scope.

(** [new Float32Array([...])]: every element is stored rounded. *)
Definition Float32Array (elements : list T) : mat4 T := map fround elements.

(** *** Vector math helper functions *)

(** The [len] of [normalize], as a function of its own: |v|. *)
Definition vec_length (v : vec3 T) : T :=
  sqrt (pow2 (c0 v) + pow2 (c1 v) + pow2 (c2 v)).

Definition normalize (v : vec3 T) : vec3 T :=
  let len := sqrt (pow2 (c0 v) + pow2 (c1 v) + pow2 (c2 v)) in
  vec3_map (fun x => x / len) v.

Definition subtract (a b : vec3 T) : vec3 T :=
  Vec3 (c0 a - c0 b) (c1 a - c1 b) (c2 a - c2 b).

Definition cross (a b : vec3 T) : vec3 T :=
  Vec3 (c1 a * c2 b - c2 a * c1 b)
       (c2 a * c0 b - c0 a * c2 b)
       (c0 a * c1 b - c1 a * c0 b).

Definition dot (a b : vec3 T) : T :=
  c0 a * c0 b + c1 a * c1 b + c2 a * c2 b.

(** [s * v], componentwise; the script has no such helper, the
    statement about [normalize] uses it. *)
Definition scale (s : T) (v : vec3 T) : vec3 T :=
  vec3_map (fun x => s * x) v.

(** *** Helper functions for LookAt and Ortho *)

Definition lookAt (eye at_ up : vec3 T) : mat4 T :=
  let zAxis := normalize (subtract eye at_) in
  let xAxis := normalize (cross up zAxis) in
  let yAxis := cross zAxis xAxis in
  Float32Array
    [ c0 xAxis; c0 yAxis; c0 zAxis; lit 0;
      c1 xAxis; c1 yAxis; c1 zAxis; lit 0;
      c2 xAxis; c2 yAxis; c2 zAxis; lit 0;
      - dot xAxis eye; - dot yAxis eye; - dot zAxis eye; lit 1 ].

Definition ortho (left right bottom top near far : T) : mat4 T :=
  Float32Array
    [ lit 2 / (right - left); lit 0; lit 0; lit 0;
      lit 0; lit 2 / (top - bottom); lit 0; lit 0;
      lit 0; lit 0; - lit 2 / (far - near); lit 0;
      - (right + left) / (right - left);
      - (top + bottom) / (top - bottom);
      - (far + near) / (far - near);
      lit 1 ].

(** *** What the vertex shader does with a matrix

    [gl.uniformMatrix4fv(location, false, m)] hands the sixteen elements
    over untransposed, so element [4 * c + r] is row [r] of column [c],
    and the shader's [m * vec4(...)] is the product below. *)

Definition elt (m : mat4 T) (i : nat) : T := nth i m (lit 0).

Definition mat4_mul_vec4 (m : mat4 T) (p : vec4 T) : vec4 T :=
  let row r :=
    elt m r * px p + elt m (4 + r) * py p
    + elt m (8 + r) * pz p + elt m (12 + r) * pw p in
  Vec4 (row 0%nat) (row 1%nat) (row 2%nat) (row 3%nat).

(** The homogeneous divide of the pipeline: every component over [w]. *)
Definition homogeneous_divide (p : vec4 T) : vec4 T :=
  Vec4 (px p / pw p) (py p / pw p) (pz p / pw p) (pw p / pw p).

(** The three basis vectors a view matrix holds, read back from its
    columns: [xAxis], [yAxis] and [zAxis] of [lookAt]. *)
Definition basis_of (m : mat4 T) : vec3 T * vec3 T * vec3 T :=
  (Vec3 (elt m 0) (elt m 4) (elt m 8),
   Vec3 (elt m 1) (elt m 5) (elt m 9),
   Vec3 (elt m 2) (elt m 6) (elt m 10)).

(** The translation a view matrix holds: elements 12 to 15. *)
Definition translation_of (m : mat4 T) : vec4 T :=
  Vec4 (elt m 12) (elt m 13) (elt m 14) (elt m 15).

End Math.

(** ** The program state and the calls it makes

    The script keeps [zoom], [eye], [at] and [up] in top-level bindings and
    talks to one WebGL context.  The state of the context that matters here
    is the sequence of calls it has received, oldest first. *)

Inductive uniform : Type := uProjectionMatrix | uModelViewMatrix.

Inductive gl_call (T : Type) : Type :=
| clearColor (red green blue alpha : T)
| clear_COLOR_BUFFER_BIT
| uniformMatrix4fv (location : uniform) (transpose : bool) (value : mat4 T)
| drawArrays_TRIANGLES (first count : Z).

Arguments clear_COLOR_BUFFER_BIT {T}.
Arguments drawArrays_TRIANGLES {T} first count.

Record world (T : Type) : Type := World {
  zoom : T;
  eye  : vec3 T;
  at_  : vec3 T;
  up   : vec3 T;
  gl   : list (gl_call T)
}.

(** The camera: everything of the state but the context. *)
Definition camera {T : Type} (w : world T) : T * vec3 T * vec3 T * vec3 T :=
  (zoom w, eye w, at_ w, up w).

(** A statement of the script: it runs in a state, yields a value and
    leaves a state. *)
Definition script (T A : Type) : Type := world T -> A * world T.

Definition ret {T A : Type} (a : A) : script T A := fun w => (a, w).

Definition bind {T A B : Type} (m : script T A) (k : A -> script T B)
  : script T B :=
  fun w => let (a, w') := m w in k a w'.

Definition exec {T A : Type} (m : script T A) (w : world T) : world T :=
  snd (m w).

Declare Scope script_scope.
Delimit Scope script_scope with script.
Notation "x <- m ;; k" := (bind m (fun x => k))
  (at level 61, m at next level, right associativity) : script_scope.
Notation "m ;; k" := (bind m (fun _ => k))
  (at level 61, right associativity) : script_scope.

Section Program.

Context {T : Type} {N : Number T}.
Local Open Scope num_scope.
Local Open Scope script_scope.

(** Reading and writing the top-level bindings, calling the context. *)
Definition read {A : Type} (field : world T -> A) : script T A :=
  fun w => (field w, w).

Definition assign_zoom (z : T) : script T unit :=
  fun w => (tt, World z (eye w) (at_ w) (up w) (gl w)).

Definition store_eye_2 (z : T) : script T unit :=
  fun w => (tt, World (zoom w) (vec3_set2 (eye w) z) (at_ w) (up w) (gl w)).

Definition call (c : gl_call T) : script T unit :=
  fun w => (tt, World (zoom w) (eye w) (at_ w) (up w) (gl w ++ [c])).

(** *** Initialize zoom and view parameters

    The state when the script reaches its first [render()].  The calls
    that set the context up before (shaders, program, vertex buffer,
    attributes) are not recorded: [render] and the handler never read
    them. *)
Definition init : world T :=
  let zoom := lit 5 in
  World zoom (Vec3 (lit 0) (lit 0) zoom)
        (Vec3 (lit 0) (lit 0) (lit 0))
        (Vec3 (lit 0) (lit 1) (lit 0))
        [].

(** *** Render function *)
Definition render : script T unit :=
  call (clearColor (lit 0) (lit 0) (lit 0) (lit 1)) ;;
  call clear_COLOR_BUFFER_BIT ;;
  eye <- read (@eye T) ;;
  at_ <- read (@at_ T) ;;
  up <- read (@up T) ;;
  let modelViewMatrix := lookAt eye at_ up in
  zoom <- read (@zoom T) ;;
  let projectionMatrix :=
    ortho (- zoom) zoom (- zoom) zoom (- lit 10) (lit 10) in
  call (uniformMatrix4fv uModelViewMatrix false modelViewMatrix) ;;
  call (uniformMatrix4fv uProjectionMatrix false projectionMatrix) ;;
  call (drawArrays_TRIANGLES 0 3).

(** *** Handle slider input for zoom

    [parseFloat] is the engine's; the handler is read for whatever number
    it returns on the slider's text.  [oninput_number z] is the body of
    the handler once [parseFloat(event.target.value)] has produced [z]. *)
Definition oninput_number (z : T) : script T unit :=
  assign_zoom z ;;
  zoom <- read (@zoom T) ;;
  store_eye_2 zoom ;;
  render.

Variable parseFloat : string -> T.

Definition oninput (event_target_value : string) : script T unit :=
  oninput_number (parseFloat event_target_value).

(** The whole run of the script: the initial render, then one handler
    call per slider event, given by the text of the slider. *)
Definition run (events : list string) : world T :=
  fold_left (fun w value => exec (oninput value) w) events (exec render init).

(** The same run, given by the numbers [parseFloat] made of the texts. *)
Definition run_numbers (zs : list T) : world T :=
  fold_left (fun w z => exec (oninput_number z) w) zs (exec render init).

(** *** Reading the context back *)

(** The matrix a uniform holds: the value of the last upload to it. *)
Fixpoint uploaded (location : uniform) (calls : list (gl_call T))
  : option (mat4 T) :=
  match calls with
  | [] => None
  | c :: rest =>
      match uploaded location rest with
      | Some m => Some m
      | None =>
          match c with
          | uniformMatrix4fv l _ m =>
              match location, l with
              | uProjectionMatrix, uProjectionMatrix
              | uModelViewMatrix, uModelViewMatrix => Some m
              | _, _ => None
              end
          | _ => None
          end
      end
  end.

Definition view_matrix (w : world T) : option (mat4 T) :=
  uploaded uModelViewMatrix (gl w).

Definition projection_matrix (w : world T) : option (mat4 T) :=
  uploaded uProjectionMatrix (gl w).

(** The calls one execution of [render] makes in a state with this
    camera. *)
Definition frame (w : world T) : list (gl_call T) :=
  [ clearColor (lit 0) (lit 0) (lit 0) (lit 1);
    clear_COLOR_BUFFER_BIT;
    uniformMatrix4fv uModelViewMatrix false (lookAt (eye w) (at_ w) (up w));
    uniformMatrix4fv uProjectionMatrix false
      (ortho (- zoom w) (zoom w) (- zoom w) (zoom w) (- lit 10) (lit 10));
    drawArrays_TRIANGLES 0 3 ].



(** The basis ((1,0,0),(0,1,0),(0,0,1)). *)
Definition identity_basis : vec3 T * vec3 T * vec3 T :=
  (Vec3 (lit 1) (lit 0) (lit 0),
   Vec3 (lit 0) (lit 1) (lit 0),
   Vec3 (lit 0) (lit 0) (lit 1)).

(** What holds of the camera all along a run: [at] and [up] keep their
    initial values, [eye] stays on the z axis at distance [zoom]. *)
Definition on_axis (w : world T) : Prop :=
  eye w = Vec3 (lit 0) (lit 0) (zoom w)
  /\ at_ w = Vec3 (lit 0) (lit 0) (lit 0)
  /\ up w = Vec3 (lit 0) (lit 1) (lit 0).

End Program.

(** [Number.isFinite] fails on every component. *)
Definition all_nonfinite (v : vec3 float) : bool :=
  negb (is_finite (c0 v)) && negb (is_finite (c1 v)) && negb (is_finite (c2 v)).

(** ** Rounding in the specification of binary64 *)


(** ** The vertex data and the vertex shader *)

Section Pipeline.

Context {T : Type} {N : Number T}.
Local Open Scope num_scope.

(** The literal [0.5], five tenths. *)
Definition half : T := lit 5 / lit 10.

(** *** Triangle vertices with colors *)
Definition vertices : list T :=
  Float32Array
    [ lit 0;  half;   lit 0;   lit 1; lit 0; lit 0;
      - half; - half; lit 0;   lit 0; lit 1; lit 0;
      half;   - half; lit 0;   lit 0; lit 0; lit 1 ].

(** [Float32Array.BYTES_PER_ELEMENT]. *)
Definition BYTES_PER_ELEMENT : nat := 4.

(** The elements of the bound buffer a three-component float attribute
    reads for vertex [i], after
    [gl.vertexAttribPointer(location, 3, gl.FLOAT, false, stride, offset)],
    [stride] and [offset] in bytes. *)
Definition attribute_indices (stride offset i : nat) : list nat :=
  let first := ((offset + i * stride) / BYTES_PER_ELEMENT)%nat in
  [first; S first; S (S first)].

Definition attribute (buffer : list T) (stride offset i : nat) : vec3 T :=
  let first := ((offset + i * stride) / BYTES_PER_ELEMENT)%nat in
  Vec3 (elt buffer first) (elt buffer (S first)) (elt buffer (S (S first))).

(** *** Set up position attribute, set up color attribute *)
Definition aPosition (i : nat) : vec3 T :=
  attribute vertices (6 * BYTES_PER_ELEMENT) 0 i.

Definition aColor (i : nat) : vec3 T :=
  attribute vertices (6 * BYTES_PER_ELEMENT) (3 * BYTES_PER_ELEMENT) i.

(** The shader's [mat4 * mat4]: column [c] of the product is the left
    matrix applied to column [c] of the right one. *)
Definition mat4_column (m : mat4 T) (c : nat) : vec4 T :=
  Vec4 (elt m (4 * c)) (elt m (4 * c + 1)) (elt m (4 * c + 2))
       (elt m (4 * c + 3)).

Definition mat4_mul_mat4 (a b : mat4 T) : mat4 T :=
  flat_map
    (fun c => let col := mat4_mul_vec4 a (mat4_column b c) in
              [px col; py col; pz col; pw col])
    [0; 1; 2; 3]%nat.

(** *** Vertex shader source

    [vColor = aColor;
     gl_Position = uProjectionMatrix * uModelViewMatrix * vec4(aPosition, 1.0);]
    The result is the pair of [gl_Position] and [vColor]. *)
Definition vertex_shader (projection modelView : mat4 T)
    (position color : vec3 T) : vec4 T * vec3 T :=
  (mat4_mul_vec4 (mat4_mul_mat4 projection modelView)
                 (Vec4 (c0 position) (c1 position) (c2 position) (lit 1)),
   color).

(** [gl_Position] of a vertex at [position] under the uniforms the context
    holds in state [w]. *)
Definition gl_Position (w : world T) (position : vec3 T) : option (vec4 T) :=
  match projection_matrix w, view_matrix w with
  | Some projection, Some modelView =>
      Some (fst (vertex_shader projection modelView position position))
  | _, _ => None
  end.

(** The number of [gl.drawArrays] calls among the calls made. *)
Definition draws (calls : list (gl_call T)) : nat :=
  List.length
    (filter (fun c => match c with drawArrays_TRIANGLES _ _ => true | _ => false end)
            calls).

End Pipeline.

(** The clip volume of the pipeline: -w <= x, y, z <= w. *)
Definition in_clip_volume (p : vec4 R) : Prop :=
  (- pw p <= px p <= pw p /\ - pw p <= py p <= pw p
   /\ - pw p <= pz p <= pw p)%R.

(** ** Shader and program creation

    [createShader] and [createProgram] talk to the context before anything
    is drawn.  The context numbers the objects it creates; whether a
    shader compiles or a program links, and what the info logs say, is the
    driver's answer, a function of the calls the context has received.
    The WebGL interface declares the shader of [attachShader] an object:
    handed [null], the call throws a [TypeError], which nothing in the
    script catches. *)

Module Setup.

Inductive shader_type : Type := VERTEX_SHADER | FRAGMENT_SHADER.

(** A WebGL object is known by its number; [None] is [null]. *)
Definition handle : Type := nat.

Inductive call : Type :=
| createShader_ (type : shader_type) (shader : handle)
| shaderSource (shader : handle) (source : string)
| compileShader (shader : handle)
| deleteShader (shader : handle)
| createProgram_ (program : handle)
| attachShader (program shader : handle)
| linkProgram (program : handle)
| console_error (message info : string).

Record context : Type := Context {
  next  : handle;        (* the number the next object created gets *)
  calls : list call      (* the calls received, oldest first *)
}.

(** How a helper ends: it returns a value, or a [TypeError] leaves it. *)
Inductive completion (A : Type) : Type :=
| Returned (value : A)
| Thrown_TypeError.

Arguments Thrown_TypeError {A}.

Section Helpers.

(** The driver: [gl.getShaderParameter(shader, gl.COMPILE_STATUS)],
    [gl.getProgramParameter(program, gl.LINK_STATUS)] and the two info
    logs, after the calls received so far. *)
Variable COMPILE_STATUS : list call -> handle -> bool.
Variable LINK_STATUS : list call -> handle -> bool.
Variable getShaderInfoLog : list call -> handle -> string.
Variable getProgramInfoLog : list call -> handle -> string.

(** *** Helper function to create a shader *)
Definition createShader (type : shader_type) (source : string) (gl : context)
  : option handle * context :=
  let shader := next gl in
  let received :=
    calls gl ++ [createShader_ type shader; shaderSource shader source;
                 compileShader shader] in
  if negb (COMPILE_STATUS received shader) then
    (None,
     Context (S shader)
       (received
        ++ [console_error "Shader compilation error:"
                          (getShaderInfoLog received shader);
            deleteShader shader]))
  else (Some shader, Context (S shader) received).

(** *** Helper function to create a WebGL program *)
Definition createProgram (vertexShader fragmentShader : option handle)
    (gl : context) : completion (option handle) * context :=
  let program := next gl in
  let created := calls gl ++ [createProgram_ program] in
  match vertexShader with
  | None => (Thrown_TypeError, Context (S program) created)
  | Some vs =>
      let attached := created ++ [attachShader program vs] in
      match fragmentShader with
      | None => (Thrown_TypeError, Context (S program) attached)
      | Some fs =>
          let received :=
            attached ++ [attachShader program fs; linkProgram program] in
          if negb (LINK_STATUS received program) then
            (Returned None,
             Context (S program)
               (received
                ++ [console_error "Program linking error:"
                                  (getProgramInfoLog received program)]))
          else (Returned (Some program), Context (S program) received)
      end
  end.

End Helpers.

(** The shaders created and not deleted, and the programs created (nothing
    deletes a program), oldest first. *)
Definition deleted (log : list call) (h : handle) : bool :=
  existsb (fun c => match c with deleteShader s => Nat.eqb s h | _ => false end)
          log.

Definition live_shaders (log : list call) : list handle :=
  flat_map
    (fun c => match c with
              | createShader_ _ s => if deleted log s then [] else [s]
              | _ => []
              end)
    log.

Definition programs (log : list call) : list handle :=
  flat_map (fun c => match c with createProgram_ p => [p] | _ => [] end) log.

(** The objects a call names. *)
Definition named (c : call) : list handle :=
  match c with
  | createShader_ _ h | shaderSource h _ | compileShader h | deleteShader h
  | createProgram_ h | linkProgram h => [h]
  | attachShader p s => [p; s]
  | console_error _ _ => []
  end.

(** Every object named so far has a number below the next one. *)
Definition fresh (gl : context) : Prop :=
  Forall (fun c => Forall (fun h => h < next gl) (named c)) (calls gl).

End Setup.

(** ** The render procedure and the handler, in any arithmetic *)

Section ProgramFacts.

Context {T : Type} {N : Number T}.
Local Open Scope num_scope.

Lemma exec_render (w : world T) :
  exec render w = World (zoom w) (eye w) (at_ w) (up w) (gl w ++ frame w).
Proof.
  unfold exec, render, bind, call, read, frame; simpl.
  now rewrite <- !app_assoc.
Qed.

Lemma exec_oninput_number (z : T) (w : world T) :
  exec (oninput_number z) w
  = exec render (World z (vec3_set2 (eye w) z) (at_ w) (up w) (gl w)).
Proof. reflexivity. Qed.

Lemma uploaded_app (location : uniform) (old new : list (gl_call T)) (m : mat4 T) :
  uploaded location new = Some m -> uploaded location (old ++ new) = Some m.
Proof.
  intros H. induction old as [|c old IH]; simpl; [exact H|].
  now rewrite IH.
Qed.

Lemma view_matrix_frame (old : list (gl_call T)) (w : world T) :
  uploaded uModelViewMatrix (old ++ frame w)
  = Some (lookAt (eye w) (at_ w) (up w)).
Proof. now apply uploaded_app. Qed.

Lemma projection_matrix_frame (old : list (gl_call T)) (w : world T) :
  uploaded uProjectionMatrix (old ++ frame w)
  = Some (ortho (- zoom w) (zoom w) (- zoom w) (zoom w) (- lit 10) (lit 10)).
Proof. now apply uploaded_app. Qed.

Lemma view_matrix_render (w : world T) :
  view_matrix (exec render w) = Some (lookAt (eye w) (at_ w) (up w)).
Proof.
  unfold view_matrix. rewrite exec_render. simpl gl. apply view_matrix_frame.
Qed.

Lemma projection_matrix_render (w : world T) :
  projection_matrix (exec render w)
  = Some (ortho (- zoom w) (zoom w) (- zoom w) (zoom w) (- lit 10) (lit 10)).
Proof.
  unfold projection_matrix. rewrite exec_render. simpl gl.
  apply projection_matrix_frame.
Qed.

Lemma camera_render (w : world T) : camera (exec render w) = camera w.
Proof. now rewrite exec_render. Qed.

Lemma frame_camera (w1 w2 : world T) :
  camera w1 = camera w2 -> frame w1 = frame w2.
Proof.
  unfold camera, frame. intros H. injection H as -> -> -> ->. reflexivity.
Qed.

Lemma run_numbers_snoc (zs : list T) (z : T) :
  run_numbers (zs ++ [z]) = exec (oninput_number z) (run_numbers zs).
Proof. unfold run_numbers. now rewrite fold_left_app. Qed.

Lemma run_parsed (parseFloat : string -> T) (events : list string) :
  run parseFloat events = run_numbers (map parseFloat events).
Proof.
  unfold run, run_numbers. generalize (exec render (@init T N)).
  induction events as [|e events IH]; intros w; simpl; [reflexivity|].
  apply IH.
Qed.

(** The camera stays on the axis all along a run. *)
Lemma on_axis_run (zs : list T) : on_axis (run_numbers zs).
Proof.
  induction zs as [|z zs IH] using rev_ind.
  - unfold run_numbers; simpl. rewrite exec_render. repeat split.
  - rewrite run_numbers_snoc, exec_oninput_number, exec_render.
    destruct IH as (He & Ha & Hu). unfold on_axis; simpl.
    rewrite He, Ha, Hu. repeat split.
Qed.

End ProgramFacts.


(** ** Exact arithmetic *)

Section Exact.

Local Open Scope R_scope.

Lemma vec3_eq (T : Type) (a b c a' b' c' : T) :
  a = a' -> b = b' -> c = c' -> Vec3 a b c = Vec3 a' b' c'.
Proof. now intros -> -> ->. Qed.

Lemma vec4_eq (T : Type) (a b c d a' b' c' d' : T) :
  a = a' -> b = b' -> c = c' -> d = d' -> Vec4 a b c d = Vec4 a' b' c' d'.
Proof. now intros -> -> -> ->. Qed.

Lemma normalize_length (v : vec3 R) :
  normalize v = vec3_map (fun x => x / vec_length v) v.
Proof. reflexivity. Qed.

Lemma vec_length_square (v : vec3 R) :
  vec_length v * vec_length v = c0 v * c0 v + c1 v * c1 v + c2 v * c2 v.
Proof.
  unfold vec_length; cbn -[pow]. rewrite sqrt_sqrt; [ring|]. nra.
Qed.

Lemma vec_length_eq (v : vec3 R) (l : R) :
  0 <= l -> c0 v * c0 v + c1 v * c1 v + c2 v * c2 v = l * l ->
  vec_length v = l.
Proof.
  intros Hl H. unfold vec_length; cbn -[pow].
  replace (c0 v ^ 2 + c1 v ^ 2 + c2 v ^ 2) with (l * l) by (rewrite <- H; ring).
  now apply sqrt_square.
Qed.


Lemma normalize_unit (v : vec3 R) :
  vec_length v <> 0 -> vec_length (normalize v) = 1.
Proof.
  intros Hl. pose proof (vec_length_square v) as Hsq.
  apply vec_length_eq; [lra|].
  rewrite normalize_length; unfold vec3_map; cbn [c0 c1 c2].
  set (l := vec_length v) in *.
  transitivity ((c0 v * c0 v + c1 v * c1 v + c2 v * c2 v) / (l * l)).
  - field; exact Hl.
  - rewrite <- Hsq. field; exact Hl.
Qed.

(** The view matrix of a camera on the positive z axis looking at the
    origin with [up] along y. *)
Lemma lookAt_positive_axis (z : R) :
  0 < z ->
  lookAt (Vec3 0 0 z) (Vec3 0 0 0) (Vec3 0 1 0)
  = [1; 0; 0; 0;  0; 1; 0; 0;  0; 0; 1; 0;  0; 0; - z; 1].
Proof.
  intros Hz. unfold lookAt.
  assert (Hzax : normalize (subtract (Vec3 0 0 z) (Vec3 0 0 0)) = Vec3 0 0 1).
  { rewrite normalize_length.
    rewrite (@vec_length_eq _ z); [|lra|simpl; ring].
    unfold vec3_map; simpl. apply vec3_eq; field; lra. }
  rewrite Hzax.
  assert (Hxax : normalize (cross (Vec3 0 1 0) (Vec3 0 0 1)) = Vec3 1 0 0).
  { rewrite normalize_length.
    rewrite (@vec_length_eq _ 1); [|lra|simpl; ring].
    unfold vec3_map; simpl. apply vec3_eq; field. }
  rewrite Hxax.
  unfold Float32Array, cross, dot; simpl.
  repeat (f_equal; try ring).
Qed.

(** The same camera on the negative z axis: the x and z axes flip. *)
Lemma lookAt_negative_axis (z : R) :
  z < 0 ->
  lookAt (Vec3 0 0 z) (Vec3 0 0 0) (Vec3 0 1 0)
  = [-1; 0; 0; 0;  0; 1; 0; 0;  0; 0; -1; 0;  0; 0; z; 1].
Proof.
  intros Hz. unfold lookAt.
  assert (Hzax : normalize (subtract (Vec3 0 0 z) (Vec3 0 0 0)) = Vec3 0 0 (-1)).
  { rewrite normalize_length.
    rewrite (@vec_length_eq _ (- z)); [|lra|simpl; ring].
    unfold vec3_map; simpl. apply vec3_eq; field; lra. }
  rewrite Hzax.
  assert (Hxax : normalize (cross (Vec3 0 1 0) (Vec3 0 0 (-1))) = Vec3 (-1) 0 0).
  { rewrite normalize_length.
    rewrite (@vec_length_eq _ 1); [|lra|simpl; ring].
    unfold vec3_map; simpl. apply vec3_eq; field. }
  rewrite Hxax.
  unfold Float32Array, cross, dot; simpl.
  repeat (f_equal; try ring).
Qed.

(** The view matrix after a slider event, whatever came before. *)
Lemma view_matrix_after_event (zs : list R) (z : R) :
  view_matrix (run_numbers (zs ++ [z]))
  = Some (lookAt (Vec3 0 0 z) (Vec3 0 0 0) (Vec3 0 1 0)).
Proof.
  rewrite run_numbers_snoc, exec_oninput_number, view_matrix_render.
  destruct (on_axis_run zs) as (He & Ha & Hu).
  cbn [eye at_ up]. rewrite He, Ha, Hu. reflexivity.
Qed.

End Exact.

(** ** Binary64 *)

Section Doubles.

Local Open Scope float_scope.

(** A double that compares equal to zero is one of the two zeros. *)
Lemma float_zero_cases (z : float) :
  (z =? 0) = true -> z = 0 \/ z = -0.
Proof.
  intros H. rewrite FloatAxioms.eqb_spec in H.
  pose proof (SF2Prim_Prim2SF z) as E.
  destruct (Prim2SF z) as [s| s | | s m e];
    try discriminate; try (destruct s; discriminate).
  destruct s; [right|left]; rewrite <- E; reflexivity.
Qed.

Lemma is_finite_spec (x : float) :
  is_finite x =
  match Prim2SF x with
  | S754_nan | S754_infinity _ => false
  | _ => true
  end.
Proof.
  unfold is_finite, is_nan, is_infinity.
  rewrite !FloatAxioms.eqb_spec, abs_spec.
  destruct (Prim2SF x) as [s| s | | s m e]; try reflexivity.
  - destruct s; reflexivity.
  - unfold SFabs, SFeqb, SFcompare.
    rewrite Z.compare_refl, Pos.compare_cont_refl. destruct s; reflexivity.
Qed.

(** Whatever is divided by a zero is an infinity or NaN. *)
Lemma div_zero_nonfinite (x z : float) :
  (z =? 0) = true -> is_finite (x / z) = false.
Proof.
  intros H. rewrite is_finite_spec, div_spec.
  destruct (float_zero_cases H) as [-> | ->];
    destruct (Prim2SF x) as [s| s | | s m e]; reflexivity.
Qed.

Lemma normalize_zero_length (v : vec3 float) :
  (vec_length v =? 0) = true -> all_nonfinite (normalize v) = true.
Proof.
  intros H. unfold all_nonfinite, normalize, vec3_map; cbn [c0 c1 c2].
  change (sqrt (pow2 (c0 v) + pow2 (c1 v) + pow2 (c2 v)))%num
    with (vec_length v).
  unfold div; cbn [FloatNumber].
  now rewrite !div_zero_nonfinite.
Qed.

(** Rounding: a vector so long that its squares overflow is normalized to
    the zero vector, and one so short that they underflow is divided by
    zero, although neither has length zero. *)
Example normalize_overflow :
  normalize (Vec3 0x1p+700 0 0) = Vec3 0 0 0.
Proof. reflexivity. Qed.

Example normalize_underflow :
  normalize (Vec3 0x1p-700 0 0) = Vec3 infinity nan nan.
Proof. reflexivity. Qed.

(** The projection of the unit box as the typed array holds it: -1/10 is
    rounded to binary32, and the sign of element 10 is negative. *)
Example ortho_unit_box_binary64 :
  ortho (-1) 1 (-1) 1 (-10) 10
  = [1; 0; 0; 0;  0; 1; 0; 0;  0; 0; -0x1.99999ap-4; 0;  -0; -0; -0; 1].
Proof. reflexivity. Qed.

End Doubles.

(** ** The view matrix in every state of a run *)

Section RunViews.

Context {T : Type} {N : Number T}.
Local Open Scope num_scope.


End RunViews.

(** ** Binary64, for every finite positive number *)

Section Binary64Facts.

Local Open Scope float_scope.












End Binary64Facts.

(** ** The square root of a square, from the specification of binary64 *)

Section SqrtSquare.

Local Open Scope Z_scope.













End SqrtSquare.

Section SqrtSquareBinary64.

Local Open Scope float_scope.





End SqrtSquareBinary64.

(** ** The claims *)

Section MatrixBuilders.

Local Open Scope R_scope.

Ltac matrix_entries :=
  unfold homogeneous_divide, mat4_mul_vec4, elt, ortho, Float32Array;
  cbn [map nth px py pz pw Nat.add lit add sub mul div neg fround RealNumber].

(** C1, as the code has it: [ortho(-1,1,-1,1,-10,10)], applied
    column-major and followed by the homogeneous divide, maps (0,0,0,1) to
    (0,0,0,1) and maps (1,1,10,1) to a point of negative z.  In exact
    arithmetic that point is (1,1,-1,1).  The array the code returns holds
    at element 10 the binary32 rounding of -1/10, and with the product
    taken in binary64 the point is (1,1,-1.0000000149011612,1). *)
Theorem ortho_unit_box_images :
  (homogeneous_divide
     (mat4_mul_vec4 (ortho (-1) 1 (-1) 1 (-10) 10) (Vec4 0 0 0 1))
   = Vec4 0 0 0 1
   /\ homogeneous_divide
        (mat4_mul_vec4 (ortho (-1) 1 (-1) 1 (-10) 10) (Vec4 1 1 10 1))
      = Vec4 1 1 (-1) 1)
  /\ (ortho (-1) 1 (-1) 1 (-10) 10
      = [1; 0; 0; 0;  0; 1; 0; 0;  0; 0; -0x1.99999ap-4; 0;  -0; -0; -0; 1]
      /\ homogeneous_divide
           (mat4_mul_vec4 (ortho (-1) 1 (-1) 1 (-10) 10) (Vec4 0 0 0 1))
         = Vec4 0 0 0 1
      /\ homogeneous_divide
           (mat4_mul_vec4 (ortho (-1) 1 (-1) 1 (-10) 10) (Vec4 1 1 10 1))
         = Vec4 1 1 (-0x1.0000004p+0) 1)%float.
Proof.
  split.
  - split; matrix_entries; apply vec4_eq; field.
  - repeat split.
Qed.

(** C1 as stated fails: the image of (1,1,10,1) is not (1,1,1,1). *)
Lemma ortho_far_corner_not_plus_one :
  ~ (homogeneous_divide
       (mat4_mul_vec4 (ortho (-1) 1 (-1) 1 (-10) 10) (Vec4 0 0 0 1))
     = Vec4 0 0 0 1
     /\ homogeneous_divide
          (mat4_mul_vec4 (ortho (-1) 1 (-1) 1 (-10) 10) (Vec4 1 1 10 1))
        = Vec4 1 1 1 1).
Proof.
  intros [_ H]. apply (f_equal (@pz R)) in H. revert H. matrix_entries.
  cbn [pz]. lra.
Qed.

(** C5: [cross(a,b)] is orthogonal to [a] and to [b], exactly. *)
Theorem cross_orthogonal (a b : vec3 R) :
  dot (cross a b) a = 0 /\ dot (cross a b) b = 0.
Proof.
  destruct a as [a0 a1 a2], b as [b0 b1 b2].
  unfold dot, cross; cbn. split; ring.
Qed.

End MatrixBuilders.

Section VectorMath.




End VectorMath.

Section ViewMatrix.

(** C6: from eye (0,0,5) towards the origin with up (0,1,0), [lookAt]
    returns the identity rotation and (0,0,-5,1) as its last four
    elements; in binary64 the two zeros of that row are negative zeros. *)
Theorem lookAt_from_z5 :
  (lookAt (Vec3 0 0 5) (Vec3 0 0 0) (Vec3 0 1 0)
   = [1; 0; 0; 0;  0; 1; 0; 0;  0; 0; 1; 0;  0; 0; -5; 1]
   /\ basis_of (lookAt (Vec3 0 0 5) (Vec3 0 0 0) (Vec3 0 1 0))
      = identity_basis
   /\ translation_of (lookAt (Vec3 0 0 5) (Vec3 0 0 0) (Vec3 0 1 0))
      = Vec4 0 0 (-5) 1)%R
  /\ (lookAt (Vec3 0 0 5) (Vec3 0 0 0) (Vec3 0 1 0)
      = [1; 0; 0; 0;  0; 1; 0; 0;  0; 0; 1; 0;  -0; -0; -5; 1]
      /\ basis_of (lookAt (Vec3 0 0 5) (Vec3 0 0 0) (Vec3 0 1 0))
         = identity_basis
      /\ (-0 =? 0) = true)%float.
Proof.
  split.
  - assert (H : (0 < 5)%R) by lra.
    rewrite (lookAt_positive_axis H). repeat split.
  - repeat split.
Qed.

(** C10: elements 3, 7 and 11 of [lookAt]'s matrix are 0 and element 15
    is 1, whatever the three vectors, in both arithmetics; in exact
    arithmetic the matrix therefore keeps the [w] of every point. *)
Theorem lookAt_affine :
  (forall eye at_ up : vec3 R,
      (elt (lookAt eye at_ up) 3 = 0
       /\ elt (lookAt eye at_ up) 7 = 0
       /\ elt (lookAt eye at_ up) 11 = 0
       /\ elt (lookAt eye at_ up) 15 = 1
       /\ forall p : vec4 R, pw (mat4_mul_vec4 (lookAt eye at_ up) p) = pw p)%R)
  /\ (forall eye at_ up : vec3 float,
        (elt (lookAt eye at_ up) 3 = 0
         /\ elt (lookAt eye at_ up) 7 = 0
         /\ elt (lookAt eye at_ up) 11 = 0
         /\ elt (lookAt eye at_ up) 15 = 1)%float).
Proof.
  split; intros eye at_ up.
  - repeat split. intros p. unfold mat4_mul_vec4.
    change (elt (lookAt eye at_ up) (12 + 3)) with 1%R.
    change (elt (lookAt eye at_ up) (8 + 3)) with 0%R.
    change (elt (lookAt eye at_ up) (4 + 3)) with 0%R.
    change (elt (lookAt eye at_ up) 3) with 0%R.
    cbn. ring.
  - repeat split; reflexivity.
Qed.

End ViewMatrix.

Section RenderProcedure.

Context {T : Type} {N : Number T}.
Local Open Scope num_scope.

(** C2, as the code has it: every [render] uploads the projection
    [ortho(-zoom, zoom, -zoom, zoom, -10, 10)]: left, right, bottom and top
    are at -zoom and +zoom, near and far stay at -10 and 10. *)
Theorem render_projection (w : world T) :
  projection_matrix (exec render w)
  = Some (ortho (- zoom w) (zoom w) (- zoom w) (zoom w) (- lit 10) (lit 10)).
Proof. apply projection_matrix_render. Qed.

(** C9: [render] leaves [zoom], [eye], [at] and [up] as they are; the
    calls it makes, the two matrices among them, are a function of these
    four alone; so rendering again, any number of times, uploads the same
    view and projection matrices. *)
Theorem render_idempotent (w : world T) :
  camera (exec render w) = camera w
  /\ gl (exec render w) = gl w ++ frame w
  /\ (forall w' : world T, camera w' = camera w -> frame w' = frame w)
  /\ gl (exec render (exec render w)) = (gl w ++ frame w) ++ frame w
  /\ (forall n : nat,
        camera (Nat.iter n (exec render) w) = camera w
        /\ view_matrix (Nat.iter (S n) (exec render) w)
           = view_matrix (exec render w)
        /\ projection_matrix (Nat.iter (S n) (exec render) w)
           = projection_matrix (exec render w)).
Proof.
  split; [apply camera_render|].
  split; [now rewrite exec_render|].
  split; [intros w' H; now apply frame_camera|].
  split.
  { rewrite (exec_render (exec render w)), exec_render. reflexivity. }
  assert (Hcam : forall n, camera (Nat.iter n (exec render) w) = camera w).
  { induction n as [|n IH]; [reflexivity|].
    rewrite Nat.iter_succ. now rewrite camera_render. }
  intros n. split; [apply Hcam|].
  specialize (Hcam n). rewrite Nat.iter_succ.
  rewrite !view_matrix_render, !projection_matrix_render.
  unfold camera in Hcam. injection Hcam as -> -> -> ->. split; reflexivity.
Qed.

(** C8: the handler sets [zoom] to the number [parseFloat] makes of the
    slider's text, stores that number in [eye[2]], leaves [eye[0]],
    [eye[1]], [at] and [up] alone, and then runs [render] in the state so
    updated; [render], the only other procedure that runs, changes neither
    [zoom] nor [eye]. *)
Theorem oninput_frame (parseFloat : string -> T) (value : string) (w : world T) :
  zoom (exec (oninput parseFloat value) w) = parseFloat value
  /\ eye (exec (oninput parseFloat value) w)
     = Vec3 (c0 (eye w)) (c1 (eye w)) (parseFloat value)
  /\ at_ (exec (oninput parseFloat value) w) = at_ w
  /\ up (exec (oninput parseFloat value) w) = up w
  /\ exec (oninput parseFloat value) w
     = exec render
         (World (parseFloat value)
                (Vec3 (c0 (eye w)) (c1 (eye w)) (parseFloat value))
                (at_ w) (up w) (gl w))
  /\ gl (exec (oninput parseFloat value) w)
     = gl w ++ frame (exec (oninput parseFloat value) w)
  /\ zoom (exec render w) = zoom w
  /\ eye (exec render w) = eye w.
Proof.
  unfold oninput. rewrite exec_oninput_number, !exec_render.
  repeat split.
Qed.

End RenderProcedure.

Section Zoom.

Local Open Scope R_scope.

(** C2 as stated fails: at the initial zoom 5 the projection uploaded is
    not that of the cube with all six bounds at -5 and 5, in either order
    of near and far. *)
Lemma projection_depth_not_zoom :
  ~ (forall w : world R,
        projection_matrix (exec render w)
        = Some (ortho (- zoom w) (zoom w) (- zoom w) (zoom w)
                      (- zoom w) (zoom w))%R)
  /\ ~ (forall w : world R,
        projection_matrix (exec render w)
        = Some (ortho (- zoom w) (zoom w) (- zoom w) (zoom w)
                      (zoom w) (- zoom w))%R).
Proof.
  split; intros H; specialize (H init);
    rewrite projection_matrix_render in H;
    apply (f_equal (fun o => match o with Some m => elt m 10 | None => 0%R end))
      in H;
    unfold elt, ortho, Float32Array in H;
    cbn [map nth zoom init lit add sub mul div neg fround RealNumber] in H.
    all: field_simplify in H; lra.
Qed.




(** C7: in binary64, after a slider event whose value is 0, whatever came
    before, [right - left] and [top - bottom] are zero and the projection
    uploaded holds two infinities and two NaN; nothing stops the frame: the
    handler makes all five calls of [render] with these matrices. *)
Theorem projection_at_zoom_zero (zs : list float) :
  (projection_matrix (run_numbers (zs ++ [0]))
   = Some [infinity; 0; 0; 0;  0; infinity; 0; 0;
           0; 0; -0x1.99999ap-4; 0;  nan; nan; -0; 1]
   /\ 0 - (- 0) = 0
   /\ 2 / 0 = infinity
   /\ - (0 + - 0) / 0 = nan
   /\ gl (run_numbers (zs ++ [0]))
      = gl (run_numbers zs)
        ++ [ clearColor 0 0 0 1;
             clear_COLOR_BUFFER_BIT;
             uniformMatrix4fv uModelViewMatrix false
               [nan; nan; nan; 0;  nan; nan; nan; 0;
                nan; nan; nan; 0;  nan; nan; nan; 1];
             uniformMatrix4fv uProjectionMatrix false
               [infinity; 0; 0; 0;  0; infinity; 0; 0;
                0; 0; -0x1.99999ap-4; 0;  nan; nan; -0; 1];
             drawArrays_TRIANGLES 0 3 ])%float.
Proof.
  rewrite run_numbers_snoc, exec_oninput_number.
  rewrite projection_matrix_render, exec_render.
  destruct (on_axis_run zs) as (He & Ha & Hu).
  cbn [zoom eye at_ up gl]. rewrite He, Ha, Hu.
  repeat split.
Qed.

End Zoom.

(** ** More of the vector and matrix helpers, in exact arithmetic *)

Section ExactHelpers.

Local Open Scope R_scope.

Lemma dot_self_length (v : vec3 R) : dot v v = vec_length v * vec_length v.
Proof. rewrite vec_length_square. reflexivity. Qed.

Lemma vec_length_nonneg (v : vec3 R) : 0 <= vec_length v.
Proof. unfold vec_length; cbn -[pow]. apply sqrt_pos. Qed.

(** Lagrange's identity for the script's [cross] and [dot]. *)
Lemma cross_dot_self (a b : vec3 R) :
  dot (cross a b) (cross a b) = dot a a * dot b b - dot a b * dot a b.
Proof. destruct a, b. unfold dot, cross; cbn. ring. Qed.

Lemma dot_normalize_l (a b : vec3 R) :
  dot (normalize a) b = dot a b / vec_length a.
Proof.
  rewrite normalize_length. unfold dot, vec3_map; cbn. unfold Rdiv. ring.
Qed.

Lemma dot_comm (a b : vec3 R) : dot a b = dot b a.
Proof. unfold dot; cbn. ring. Qed.

Lemma dot_cross_l (a b : vec3 R) : dot (cross a b) a = 0.
Proof. unfold dot, cross; cbn. ring. Qed.

Lemma dot_cross_r (a b : vec3 R) : dot (cross a b) b = 0.
Proof. unfold dot, cross; cbn. ring. Qed.

(** X1: [cross] is antisymmetric, [cross(b,a)] is [cross(a,b)] with every
    component negated, and the cross product of a vector with itself is the
    zero vector. *)
Theorem cross_antisymmetric (a b : vec3 R) :
  cross b a = vec3_map Ropp (cross a b) /\ cross a a = Vec3 0 0 0.
Proof.
  unfold cross, vec3_map; cbn. split; apply vec3_eq; ring.
Qed.

(** X2: [normalize] sees only the direction: a vector of non-zero length
    scaled by a positive factor normalizes to the same vector, scaled by a
    negative factor to the opposite one, and normalizing twice changes
    nothing. *)
Theorem normalize_direction (s : R) (v : vec3 R) :
  vec_length v <> 0 -> s <> 0 ->
  normalize (scale s v)
  = (if Rlt_dec 0 s then normalize v else vec3_map Ropp (normalize v))
  /\ normalize (normalize v) = normalize v.
Proof.
  intros Hv Hs. pose proof (vec_length_nonneg v) as Hpos.
  pose proof (vec_length_square v) as Hsq.
  split.
  - rewrite (normalize_length (scale s v)), (normalize_length v).
    destruct (Rlt_dec 0 s) as [Hlt | Hge].
    + rewrite (@vec_length_eq (scale s v) (s * vec_length v)).
      * unfold scale, vec3_map; cbn [c0 c1 c2 mul div RealNumber].
        apply vec3_eq; field; split; lra.
      * nra.
      * unfold scale, vec3_map; cbn [c0 c1 c2 mul RealNumber].
        replace (s * vec_length v * (s * vec_length v))
          with (s * s * (vec_length v * vec_length v)) by ring.
        rewrite Hsq. ring.
    + rewrite (@vec_length_eq (scale s v) (- s * vec_length v)).
      * unfold scale, vec3_map; cbn [c0 c1 c2 mul div RealNumber].
        apply vec3_eq; field; split; lra.
      * nra.
      * unfold scale, vec3_map; cbn [c0 c1 c2 mul RealNumber].
        replace (- s * vec_length v * (- s * vec_length v))
          with (s * s * (vec_length v * vec_length v)) by ring.
        rewrite Hsq. ring.
  - rewrite (normalize_length (normalize v)).
    rewrite (normalize_unit v Hv).
    destruct (normalize v) as [x y z]. unfold vec3_map; cbn.
    apply vec3_eq; field.
Qed.

Lemma normalize_direction_witness :
  normalize (scale (-2) (Vec3 3 0 4))
  = (if Rlt_dec 0 (-2) then normalize (Vec3 3 0 4)
     else vec3_map Ropp (normalize (Vec3 3 0 4)))
  /\ normalize (normalize (Vec3 3 0 4)) = normalize (Vec3 3 0 4).
Proof.
  apply normalize_direction.
  - rewrite (@vec_length_eq _ 5); [lra|lra|cbn; ring].
  - lra.
Defined.

(** X3: when [eye] differs from [at] and [up] is not along the line of
    sight, the three axes [lookAt] stores are of unit length and orthogonal
    to each other. *)
Theorem lookAt_orthonormal (eye at_ up : vec3 R) :
  vec_length (subtract eye at_) <> 0 ->
  vec_length (cross up (normalize (subtract eye at_))) <> 0 ->
  let '(xAxis, yAxis, zAxis) := basis_of (lookAt eye at_ up) in
  vec_length xAxis = 1 /\ vec_length yAxis = 1 /\ vec_length zAxis = 1
  /\ dot xAxis yAxis = 0 /\ dot yAxis zAxis = 0 /\ dot zAxis xAxis = 0.
Proof.
  intros Hz Hx. unfold lookAt, basis_of, elt, Float32Array.
  cbn [map nth fround RealNumber].
  set (z := normalize (subtract eye at_)) in *.
  set (x := normalize (cross up z)).
  assert (Hzl : vec_length z = 1) by (apply normalize_unit; exact Hz).
  assert (Hxl : vec_length x = 1) by (apply normalize_unit; exact Hx).
  assert (Hzx : dot z x = 0).
  { rewrite dot_comm. unfold x. rewrite dot_normalize_l.
    rewrite dot_cross_r. unfold Rdiv; ring. }
  assert (Hyy : dot (cross z x) (cross z x) = 1).
  { rewrite cross_dot_self, !dot_self_length, Hzl, Hxl, Hzx. ring. }
  replace (Vec3 (c0 x) (c1 x) (c2 x)) with x by (destruct x; reflexivity).
  replace (Vec3 (c0 z) (c1 z) (c2 z)) with z by (destruct z; reflexivity).
  replace (Vec3 (c0 (cross z x)) (c1 (cross z x)) (c2 (cross z x)))
    with (cross z x) by reflexivity.
  repeat split; trivial.
  - apply vec_length_eq; [lra|]. unfold dot in Hyy. cbn in *. lra.
  - rewrite dot_comm. apply dot_cross_r.
  - apply dot_cross_l.
Qed.

Lemma lookAt_orthonormal_witness :
  let '(xAxis, yAxis, zAxis) :=
    basis_of (lookAt (Vec3 0 0 5) (Vec3 0 0 0) (Vec3 0 1 0)) in
  vec_length xAxis = 1 /\ vec_length yAxis = 1 /\ vec_length zAxis = 1
  /\ dot xAxis yAxis = 0 /\ dot yAxis zAxis = 0 /\ dot zAxis xAxis = 0.
Proof.
  assert (Hz : vec_length (subtract (Vec3 0 0 5) (Vec3 0 0 0)) = 5).
  { apply vec_length_eq; [lra|cbn; ring]. }
  assert (Hn : normalize (subtract (Vec3 0 0 5) (Vec3 0 0 0)) = Vec3 0 0 1).
  { rewrite normalize_length, Hz. unfold vec3_map; cbn. apply vec3_eq; field. }
  apply (@lookAt_orthonormal (Vec3 0 0 5) (Vec3 0 0 0) (Vec3 0 1 0)).
  - rewrite Hz. lra.
  - rewrite Hn, (@vec_length_eq _ 1); [lra|lra|cbn; ring].
Defined.

(** X4: in exact arithmetic, when [eye] differs from [at] and [up] is
    not along the line of sight, so that nothing is divided by zero, the
    view matrix takes the eye to the origin. *)
Theorem lookAt_eye_to_origin (eye at_ up : vec3 R) :
  vec_length (subtract eye at_) <> 0 ->
  vec_length (cross up (normalize (subtract eye at_))) <> 0 ->
  mat4_mul_vec4 (lookAt eye at_ up) (Vec4 (c0 eye) (c1 eye) (c2 eye) 1)
  = Vec4 0 0 0 1.
Proof.
  intros _ _. unfold lookAt, mat4_mul_vec4, elt, Float32Array.
  cbn [map nth fround Nat.add px py pz pw lit add mul neg RealNumber].
  unfold dot; cbn [add mul RealNumber]. apply vec4_eq; ring.
Qed.

(** The camera at (1,2,2) looking at (1,-1,-2) with [up] along y: the
    line of sight has length 5 and its cross product with [up] length
    4/5. *)
Lemma oblique_camera :
  vec_length (subtract (Vec3 1 2 2) (Vec3 1 (-1) (-2))) = 5
  /\ vec_length
       (cross (Vec3 0 1 0)
              (normalize (subtract (Vec3 1 2 2) (Vec3 1 (-1) (-2)))))
     = 4 / 5.
Proof.
  assert (Hd : vec_length (subtract (Vec3 1 2 2) (Vec3 1 (-1) (-2))) = 5).
  { apply vec_length_eq; [lra|cbn; ring]. }
  split; [exact Hd|].
  rewrite normalize_length, Hd.
  apply vec_length_eq; [lra|]. unfold cross, subtract, vec3_map; cbn. field.
Qed.

Lemma lookAt_eye_to_origin_witness :
  mat4_mul_vec4 (lookAt (Vec3 1 2 2) (Vec3 1 (-1) (-2)) (Vec3 0 1 0))
                (Vec4 1 2 2 1)
  = Vec4 0 0 0 1.
Proof.
  destruct oblique_camera as (Hd & Hx).
  apply (@lookAt_eye_to_origin (Vec3 1 2 2) (Vec3 1 (-1) (-2)) (Vec3 0 1 0)).
  - rewrite Hd. lra.
  - rewrite Hx. lra.
Defined.

(** X5: in exact arithmetic, when [eye] differs from [at] and [up] is
    not along the line of sight, the view matrix puts [at] straight ahead
    on the negative z axis, at the distance between the two. *)
Theorem lookAt_target_ahead (eye at_ up : vec3 R) :
  vec_length (subtract eye at_) <> 0 ->
  vec_length (cross up (normalize (subtract eye at_))) <> 0 ->
  mat4_mul_vec4 (lookAt eye at_ up) (Vec4 (c0 at_) (c1 at_) (c2 at_) 1)
  = Vec4 0 0 (- vec_length (subtract eye at_)) 1.
Proof.
  intros Hz _.
  set (d := subtract eye at_) in *. set (z := normalize d).
  set (x := normalize (cross up z)).
  assert (Hzd : dot z d = vec_length d).
  { unfold z. rewrite dot_normalize_l, dot_self_length. field. exact Hz. }
  assert (Hxz : dot x z = 0).
  { unfold x. rewrite dot_normalize_l, dot_cross_r. unfold Rdiv; ring. }
  assert (Hxd : dot x d = 0).
  { assert (E : dot x z = dot x d / vec_length d).
    { unfold z. rewrite (dot_comm x (normalize d)), dot_normalize_l.
      now rewrite (dot_comm d x). }
    rewrite Hxz in E.
    apply (f_equal (fun r => r * vec_length d)) in E.
    field_simplify in E; [lra | exact Hz]. }
  assert (Hyd : dot (cross z x) d = 0).
  { assert (E : dot (cross z x) z = dot (cross z x) d / vec_length d).
    { unfold z at 2. rewrite (dot_comm _ (normalize d)), dot_normalize_l.
      now rewrite (dot_comm d _). }
    rewrite dot_cross_l in E.
    apply (f_equal (fun r => r * vec_length d)) in E.
    field_simplify in E; [lra | exact Hz]. }
  unfold lookAt, mat4_mul_vec4, elt, Float32Array. fold d. fold z. fold x.
  cbn [map nth fround Nat.add px py pz pw lit add mul neg RealNumber].
  apply vec4_eq.
  - transitivity (- dot x d); [|rewrite Hxd; ring].
    unfold dot, d, subtract; cbn [c0 c1 c2 add sub mul RealNumber]. ring.
  - transitivity (- dot (cross z x) d); [|rewrite Hyd; ring].
    unfold dot, d, subtract; cbn [c0 c1 c2 add sub mul RealNumber]. ring.
  - transitivity (- dot z d); [|rewrite Hzd; ring].
    unfold dot, d, subtract; cbn [c0 c1 c2 add sub mul RealNumber]. ring.
  - ring.
Qed.

Lemma lookAt_target_ahead_witness :
  mat4_mul_vec4 (lookAt (Vec3 1 2 2) (Vec3 1 (-1) (-2)) (Vec3 0 1 0))
                (Vec4 1 (-1) (-2) 1)
  = Vec4 0 0 (- vec_length (subtract (Vec3 1 2 2) (Vec3 1 (-1) (-2)))) 1.
Proof.
  destruct oblique_camera as (Hd & Hx).
  apply (@lookAt_target_ahead (Vec3 1 2 2) (Vec3 1 (-1) (-2)) (Vec3 0 1 0)).
  - rewrite Hd. lra.
  - rewrite Hx. lra.
Defined.

(** X6: for a box with distinct bounds on each axis, [ortho] takes the
    point (x, y, z, 1) to ((2x - right - left)/(right - left),
    (2y - top - bottom)/(top - bottom), (-2z - far - near)/(far - near), 1);
    so it takes the corner (left, bottom, -near) to (-1,-1,-1) and the
    corner (right, top, -far) to (1,1,1). *)
Theorem ortho_box_to_cube (left right bottom top near far x y z : R) :
  right - left <> 0 -> top - bottom <> 0 -> far - near <> 0 ->
  mat4_mul_vec4 (ortho left right bottom top near far) (Vec4 x y z 1)
  = Vec4 ((2 * x - right - left) / (right - left))
         ((2 * y - top - bottom) / (top - bottom))
         ((- 2 * z - far - near) / (far - near)) 1
  /\ mat4_mul_vec4 (ortho left right bottom top near far)
                   (Vec4 left bottom (- near) 1)
     = Vec4 (-1) (-1) (-1) 1
  /\ mat4_mul_vec4 (ortho left right bottom top near far)
                   (Vec4 right top (- far) 1)
     = Vec4 1 1 1 1.
Proof.
  intros Hx Hy Hz. unfold ortho, mat4_mul_vec4, elt, Float32Array.
  cbn [map nth fround Nat.add px py pz pw lit add sub mul div neg RealNumber].
  repeat split; apply vec4_eq; field; assumption.
Qed.

Lemma ortho_box_to_cube_witness :
  mat4_mul_vec4 (ortho (-5) 5 (-5) 5 (-10) 10) (Vec4 5 5 0 1)
  = Vec4 ((2 * 5 - 5 - -5) / (5 - -5))
         ((2 * 5 - 5 - -5) / (5 - -5))
         ((- 2 * 0 - 10 - -10) / (10 - -10)) 1
  /\ mat4_mul_vec4 (ortho (-5) 5 (-5) 5 (-10) 10) (Vec4 (-5) (-5) (- -10) 1)
     = Vec4 (-1) (-1) (-1) 1
  /\ mat4_mul_vec4 (ortho (-5) 5 (-5) 5 (-10) 10) (Vec4 5 5 (- 10) 1)
     = Vec4 1 1 1 1.
Proof. apply ortho_box_to_cube; lra. Defined.

End ExactHelpers.
(** ** What the shader is given after a slider event, in exact arithmetic *)

Section Picture.

Local Open Scope R_scope.

Lemma ortho_zoom (z : R) :
  z <> 0 ->
  ortho (- z) z (- z) z (Ropp 10) 10
  = [1 / z; 0; 0; 0;  0; 1 / z; 0; 0;  0; 0; - (1 / 10); 0;  0; 0; 0; 1].
Proof.
  intros Hz. unfold ortho, Float32Array.
  cbn [map fround lit add sub mul div neg RealNumber].
  repeat (f_equal; try (field; lra)).
Qed.

Lemma projection_matrix_after_event (zs : list R) (z : R) :
  projection_matrix (run_numbers (zs ++ [z]))
  = Some (ortho (- z) z (- z) z (Ropp 10) 10).
Proof.
  rewrite run_numbers_snoc, exec_oninput_number, projection_matrix_render.
  reflexivity.
Qed.

Ltac shade :=
  unfold vertex_shader, mat4_mul_mat4, mat4_column, mat4_mul_vec4, elt;
  cbn [fst flat_map app map nth Nat.add Nat.mul px py pz pw c0 c1 c2
       lit add sub mul div neg RealNumber].

Lemma shader_positive_zoom (zs : list R) (z : R) (v : vec3 R) :
  0 < z ->
  gl_Position (run_numbers (zs ++ [z])) v
  = Some (Vec4 (c0 v / z) (c1 v / z) ((z - c2 v) / 10) 1).
Proof.
  intros Hz. unfold gl_Position.
  rewrite projection_matrix_after_event, view_matrix_after_event.
  rewrite ortho_zoom by lra. rewrite lookAt_positive_axis by exact Hz.
  shade. f_equal. apply vec4_eq; field; lra.
Qed.

(** X7: in exact arithmetic, after a slider event with a positive value,
    the shader places the vertex (x, y, z) at
    (x/zoom, y/zoom, (zoom - z)/10, 1). *)
Theorem gl_Position_positive_zoom (zs : list R) (z : R) (v : vec3 R) :
  0 < z ->
  gl_Position (run_numbers (zs ++ [z])) v
  = Some (Vec4 (c0 v / z) (c1 v / z) ((z - c2 v) / 10) 1).
Proof. apply shader_positive_zoom. Qed.

Lemma gl_Position_positive_zoom_witness :
  gl_Position (run_numbers ([0; -5] ++ [4])) (Vec3 2 1 3)
  = Some (Vec4 (c0 (Vec3 2 1 3) / 4) (c1 (Vec3 2 1 3) / 4)
               ((4 - c2 (Vec3 2 1 3)) / 10) 1).
Proof. apply gl_Position_positive_zoom. lra. Defined.

(** X8: a negative slider value shows the picture of the opposite value
    upside down: the vertex (x, y, z) is placed at
    (x/|zoom|, -y/|zoom|, (|zoom| + z)/10, 1). *)
Theorem gl_Position_negative_zoom (zs : list R) (z : R) (v : vec3 R) :
  z < 0 ->
  gl_Position (run_numbers (zs ++ [z])) v
  = Some (Vec4 (c0 v / - z) (- (c1 v / - z)) ((- z + c2 v) / 10) 1).
Proof.
  intros Hz. unfold gl_Position.
  rewrite projection_matrix_after_event, view_matrix_after_event.
  rewrite ortho_zoom by lra. rewrite lookAt_negative_axis by exact Hz.
  shade. f_equal. apply vec4_eq; field; lra.
Qed.

Lemma gl_Position_negative_zoom_witness :
  gl_Position (run_numbers ([] ++ [-4])) (Vec3 2 1 3)
  = Some (Vec4 (c0 (Vec3 2 1 3) / - -4) (- (c1 (Vec3 2 1 3) / - -4))
               ((- -4 + c2 (Vec3 2 1 3)) / 10) 1).
Proof. apply gl_Position_negative_zoom. lra. Defined.

Lemma aPosition_values :
  aPosition 0 = Vec3 0 (1 / 2) 0
  /\ aPosition 1 = Vec3 (- (1 / 2)) (- (1 / 2)) 0
  /\ aPosition 2 = Vec3 (1 / 2) (- (1 / 2)) 0.
Proof.
  unfold aPosition, attribute, vertices, half, elt, Float32Array.
  cbn [map nth Nat.add Nat.mul Nat.div Nat.divmod BYTES_PER_ELEMENT fst
       fround lit div neg RealNumber].
  repeat split; apply vec3_eq; lra.
Qed.

(** X9: in exact arithmetic, after a slider event with a positive value,
    the three vertices of the triangle all lie in the clip volume exactly
    when the value is between 1/2 and 10: below 1/2 the corners leave the
    sides of the volume, above 10 the triangle is behind its far side. *)
Theorem triangle_in_clip_volume (zs : list R) (z : R) :
  0 < z ->
  (forall i : nat, (i < 3)%nat ->
     exists p, gl_Position (run_numbers (zs ++ [z])) (aPosition i) = Some p
               /\ in_clip_volume p)
  <-> 1 / 2 <= z <= 10.
Proof.
  intros Hz. destruct aPosition_values as (P0 & P1 & P2).
  assert (Hdiv : forall a, - 1 <= a / z <= 1 <-> - z <= a <= z).
  { intros a. split; intros [H1 H2].
    - split.
      + apply (Rmult_le_compat_r z) in H1; [|lra].
        unfold Rdiv in H1. rewrite Rmult_assoc, Rinv_l in H1; lra.
      + apply (Rmult_le_compat_r z) in H2; [|lra].
        unfold Rdiv in H2. rewrite Rmult_assoc, Rinv_l in H2; lra.
    - split.
      + apply (Rmult_le_reg_r z); [lra|].
        unfold Rdiv. rewrite Rmult_assoc, Rinv_l; lra.
      + apply (Rmult_le_reg_r z); [lra|].
        unfold Rdiv. rewrite Rmult_assoc, Rinv_l; lra. }
  split.
  - intros H. destruct (H 0%nat) as (p & Hp & Hc); [lia|].
    rewrite (@shader_positive_zoom zs z (aPosition 0) Hz), P0 in Hp.
    injection Hp as <-. unfold in_clip_volume in Hc. cbn [px py pz pw c0 c1 c2] in Hc.
    destruct Hc as (_ & Hy & Hd). apply Hdiv in Hy. lra.
  - intros Hr i Hi. eexists. split.
    + apply (@shader_positive_zoom zs z (aPosition i) Hz).
    + unfold in_clip_volume. cbn [px py pz pw].
      assert (Hi' : i = 0%nat \/ i = 1%nat \/ i = 2%nat) by lia.
      destruct Hi' as [-> | [-> | ->]]; rewrite ?P0, ?P1, ?P2;
        cbn [c0 c1 c2];
        (split; [apply Hdiv; lra | split; [apply Hdiv; lra | lra]]).
Qed.

Lemma triangle_in_clip_volume_witness :
  (forall i : nat, (i < 3)%nat ->
     exists p, gl_Position (run_numbers ([20] ++ [2])) (aPosition i) = Some p
               /\ in_clip_volume p)
  <-> 1 / 2 <= 2 <= 10.
Proof. apply triangle_in_clip_volume. lra. Defined.

End Picture.
(** ** The run of the script, in any arithmetic *)

Section RunFacts.

Context {T : Type} {N : Number T}.
Local Open Scope num_scope.

Lemma gl_run_numbers_snoc (zs : list T) (z : T) :
  gl (run_numbers (zs ++ [z]))
  = gl (run_numbers zs)
    ++ frame (World z (Vec3 (lit 0) (lit 0) z)
                    (Vec3 (lit 0) (lit 0) (lit 0))
                    (Vec3 (lit 0) (lit 1) (lit 0)) []).
Proof.
  rewrite run_numbers_snoc, exec_oninput_number, exec_render.
  destruct (on_axis_run zs) as (He & Ha & Hu).
  cbn [gl]. unfold frame; cbn [zoom eye at_ up]. rewrite He, Ha, Hu.
  reflexivity.
Qed.

Lemma draws_app (l1 l2 : list (gl_call T)) :
  draws (l1 ++ l2) = (draws l1 + draws l2)%nat.
Proof. unfold draws. now rewrite filter_app, length_app. Qed.

(** X10: the two attribute pointers and the draw call fit the buffer: the
    elements read for the positions and colors of the three vertices drawn
    are the eighteen elements of [vertices], each read once, in order. *)
Theorem attributes_cover_vertices :
  List.length (@vertices T N) = 18%nat
  /\ flat_map
       (fun i =>
          attribute_indices (6 * BYTES_PER_ELEMENT) 0 i
          ++ attribute_indices (6 * BYTES_PER_ELEMENT)
                               (3 * BYTES_PER_ELEMENT) i)
       (seq 0 3)
     = seq 0 (List.length (@vertices T N))
  /\ (forall i, (i < 3)%nat ->
        (aPosition i : vec3 T)
        = Vec3 (elt vertices (6 * i)) (elt vertices (6 * i + 1))
               (elt vertices (6 * i + 2))
        /\ (aColor i : vec3 T)
           = Vec3 (elt vertices (6 * i + 3)) (elt vertices (6 * i + 4))
                  (elt vertices (6 * i + 5))).
Proof.
  split; [reflexivity|]. split; [reflexivity|].
  intros i Hi.
  assert (Hi' : i = 0%nat \/ i = 1%nat \/ i = 2%nat) by lia.
  destruct Hi' as [-> | [-> | ->]]; split; reflexivity.
Qed.

(** X11: along any run of the script, whatever [parseFloat] returns,
    [at] and [up] keep their initial values and [eye] is (0, 0, zoom);
    [zoom] is the number made of the last slider text, or 5 before the
    first event. *)
Theorem run_camera (parseFloat : string -> T) (events : list string) :
  eye (run parseFloat events)
  = Vec3 (lit 0) (lit 0) (zoom (run parseFloat events))
  /\ at_ (run parseFloat events) = Vec3 (lit 0) (lit 0) (lit 0)
  /\ up (run parseFloat events) = Vec3 (lit 0) (lit 1) (lit 0)
  /\ zoom (run parseFloat events)
     = last (map parseFloat events) (lit 5).
Proof.
  rewrite run_parsed. destruct (on_axis_run (map parseFloat events)) as (He & Ha & Hu).
  repeat split; trivial.
  induction (map parseFloat events) as [|z zs _] using rev_ind.
  - reflexivity.
  - rewrite last_last, run_numbers_snoc, exec_oninput_number, exec_render.
    reflexivity.
Qed.

(** X12: a run makes five calls and one draw per render, the initial one
    and one per slider event: after n events the context has received
    5(n+1) calls, n+1 of them [drawArrays], and the last call is the
    draw. *)
Theorem run_draws (parseFloat : string -> T) (events : list string) :
  List.length (gl (run parseFloat events)) = (5 * S (List.length events))%nat
  /\ draws (gl (run parseFloat events)) = S (List.length events)
  /\ last (gl (run parseFloat events)) clear_COLOR_BUFFER_BIT
     = drawArrays_TRIANGLES 0 3.
Proof.
  rewrite run_parsed. rewrite <- (length_map parseFloat events).
  induction (map parseFloat events) as [|z zs IH] using rev_ind.
  - unfold run_numbers; cbn [fold_left]. rewrite exec_render. repeat split.
  - rewrite gl_run_numbers_snoc, length_app, draws_app, !length_app.
    destruct IH as (IHl & IHd & _). rewrite IHl, IHd.
    cbn [List.length frame draws filter]. repeat split; try lia.
    unfold frame.
    match goal with
    | |- last (_ ++ [?a; ?b; ?c; ?d; ?e]) _ = _ =>
        change [a; b; c; d; e] with ([a; b; c; d] ++ [e])
    end.
    rewrite app_assoc. apply last_last.
Qed.

(** X13: what is drawn after a slider event depends on that event alone:
    the camera and the two matrices the context holds are those of a run
    with just this event, whatever events came before. *)
Theorem last_event_decides (parseFloat : string -> T)
    (events : list string) (value : string) :
  camera (run parseFloat (events ++ [value])) = camera (run parseFloat [value])
  /\ view_matrix (run parseFloat (events ++ [value]))
     = view_matrix (run parseFloat [value])
  /\ projection_matrix (run parseFloat (events ++ [value]))
     = projection_matrix (run parseFloat [value])
  /\ gl (run parseFloat (events ++ [value]))
     = gl (run parseFloat events)
       ++ skipn 5 (gl (run parseFloat [value])).
Proof.
  rewrite !run_parsed, map_app. cbn [map].
  set (zs := map parseFloat events). set (z := parseFloat value).
  assert (Hcam : forall l, camera (run_numbers (l ++ [z]))
                           = (z, Vec3 (lit 0) (lit 0) z,
                              Vec3 (lit 0) (lit 0) (lit 0),
                              Vec3 (lit 0) (lit 1) (lit 0))).
  { intros l. rewrite run_numbers_snoc, exec_oninput_number, camera_render.
    destruct (on_axis_run l) as (He & Ha & Hu).
    unfold camera; cbn [zoom eye at_ up]. rewrite He, Ha, Hu. reflexivity. }
  assert (Hgl : forall l, gl (run_numbers (l ++ [z]))
                          = gl (run_numbers l)
                            ++ frame (World z (Vec3 (lit 0) (lit 0) z)
                                   (Vec3 (lit 0) (lit 0) (lit 0))
                                   (Vec3 (lit 0) (lit 1) (lit 0)) []))
    by (intros l; apply gl_run_numbers_snoc).
  change [z] with ([] ++ [z]).
  split; [now rewrite !Hcam|].
  unfold view_matrix, projection_matrix. rewrite !Hgl.
  split; [now rewrite !view_matrix_frame|].
  split; [now rewrite !projection_matrix_frame|].
  f_equal.
Qed.

End RunFacts.
(** ** Degenerate inputs, in binary64 *)

Section Degenerate.

Local Open Scope float_scope.

(** A store into a [Float32Array] keeps an infinity or NaN as it is. *)
Lemma to_float32_nonfinite (x : float) :
  is_finite x = false -> is_finite (Binary64.to_float32 x) = false.
Proof.
  intros H. unfold Binary64.to_float32.
  rewrite is_finite_spec in H.
  destruct (Prim2SF x) as [s| s | | s m e] eqn:E;
    try discriminate; rewrite is_finite_spec, E; reflexivity.
Qed.

(** X14: in binary64, when [right - left] is zero the elements 0 and 12 of
    [ortho] are infinities or NaN, and likewise elements 5 and 13 when
    [top - bottom] is zero and elements 10 and 14 when [far - near] is. *)
Theorem ortho_degenerate (left right bottom top near far : float) :
  ((right - left =? 0) = true ->
   is_finite (elt (ortho left right bottom top near far) 0) = false
   /\ is_finite (elt (ortho left right bottom top near far) 12) = false)
  /\ ((top - bottom =? 0) = true ->
      is_finite (elt (ortho left right bottom top near far) 5) = false
      /\ is_finite (elt (ortho left right bottom top near far) 13) = false)
  /\ ((far - near =? 0) = true ->
      is_finite (elt (ortho left right bottom top near far) 10) = false
      /\ is_finite (elt (ortho left right bottom top near far) 14) = false).
Proof.
  unfold ortho, elt, Float32Array.
  cbn [map nth fround lit add sub mul div neg FloatNumber].
  repeat split; apply to_float32_nonfinite, div_zero_nonfinite; assumption.
Qed.

Lemma ortho_degenerate_witness :
  (is_finite (elt (ortho 3 3 4 4 7 7) 0) = false
   /\ is_finite (elt (ortho 3 3 4 4 7 7) 12) = false)
  /\ (is_finite (elt (ortho 3 3 4 4 7 7) 5) = false
      /\ is_finite (elt (ortho 3 3 4 4 7 7) 13) = false)
  /\ (is_finite (elt (ortho 3 3 4 4 7 7) 10) = false
      /\ is_finite (elt (ortho 3 3 4 4 7 7) 14) = false).
Proof.
  destruct (ortho_degenerate 3 3 4 4 7 7) as (Hx & Hy & Hz).
  split; [apply Hx; reflexivity|].
  split; [apply Hy; reflexivity | apply Hz; reflexivity].
Defined.

(** X15: in binary64, when the length computed for [eye - at] is zero, as
    it is when the two are the same point, the z axis [lookAt] stores
    (elements 2, 6 and 10) holds only infinities and NaN. *)
Theorem lookAt_eye_on_target (eye at_ up : vec3 float) :
  (vec_length (subtract eye at_) =? 0) = true ->
  is_finite (elt (lookAt eye at_ up) 2) = false
  /\ is_finite (elt (lookAt eye at_ up) 6) = false
  /\ is_finite (elt (lookAt eye at_ up) 10) = false.
Proof.
  intros H. apply normalize_zero_length in H.
  unfold all_nonfinite in H.
  apply andb_prop in H as [H H2]. apply andb_prop in H as [H0 H1].
  apply negb_true_iff in H0, H1, H2.
  unfold lookAt, elt, Float32Array. cbn [map nth fround FloatNumber].
  repeat split; apply to_float32_nonfinite; assumption.
Qed.

Lemma lookAt_eye_on_target_witness :
  is_finite (elt (lookAt (Vec3 1 2 3) (Vec3 1 2 3) (Vec3 0 1 0)) 2) = false
  /\ is_finite (elt (lookAt (Vec3 1 2 3) (Vec3 1 2 3) (Vec3 0 1 0)) 6) = false
  /\ is_finite (elt (lookAt (Vec3 1 2 3) (Vec3 1 2 3) (Vec3 0 1 0)) 10) = false.
Proof. apply lookAt_eye_on_target. reflexivity. Defined.

(** X16: in binary64, when [parseFloat] returns NaN, as it does on a text
    that is no number, the handler still renders, whatever events came
    before: [zoom] is NaN, the view matrix uploaded has NaN in its twelve
    computed elements, the projection has NaN at elements 0, 5, 12 and 13,
    and the draw call follows. *)
Theorem oninput_nan (zs : list float) :
  zoom (run_numbers (zs ++ [nan])) = nan
  /\ view_matrix (run_numbers (zs ++ [nan]))
     = Some [nan; nan; nan; 0;  nan; nan; nan; 0;
             nan; nan; nan; 0;  nan; nan; nan; 1]
  /\ projection_matrix (run_numbers (zs ++ [nan]))
     = Some [nan; 0; 0; 0;  0; nan; 0; 0;
             0; 0; -0x1.99999ap-4; 0;  nan; nan; -0; 1]
  /\ last (gl (run_numbers (zs ++ [nan]))) clear_COLOR_BUFFER_BIT
     = drawArrays_TRIANGLES 0 3.
Proof.
  assert (Hgl : gl (run_numbers (zs ++ [nan]))
                = gl (run_numbers zs)
                  ++ frame (World nan (Vec3 0 0 nan) (Vec3 0 0 0)
                                  (Vec3 0 1 0) [])).
  { rewrite gl_run_numbers_snoc. reflexivity. }
  split.
  { rewrite run_numbers_snoc, exec_oninput_number, exec_render. reflexivity. }
  unfold view_matrix, projection_matrix. rewrite Hgl.
  split; [rewrite view_matrix_frame; reflexivity|].
  split; [rewrite projection_matrix_frame; reflexivity|].
  unfold frame.
  match goal with
  | |- last (_ ++ [?a; ?b; ?c; ?d; ?e]) _ = _ =>
      change [a; b; c; d; e] with ([a; b; c; d] ++ [e])
  end.
  rewrite app_assoc. apply last_last.
Qed.

End Degenerate.
(** ** Shader and program creation *)

Section SetupFacts.

Import Setup.

Variable COMPILE_STATUS : list call -> handle -> bool.
Variable LINK_STATUS : list call -> handle -> bool.
Variable getShaderInfoLog : list call -> handle -> string.
Variable getProgramInfoLog : list call -> handle -> string.

Lemma flat_map_agree (A B : Type) (f g : A -> list B) (l : list A) :
  (forall a, In a l -> f a = g a) -> flat_map f l = flat_map g l.
Proof.
  induction l as [|a l IH]; intros H; [reflexivity|].
  cbn [flat_map]. rewrite (H a (or_introl eq_refl)), IH; [reflexivity|].
  intros b Hb. apply H. now right.
Qed.

Lemma flat_map_none (A B : Type) (l : list A) :
  flat_map (fun _ : A => @nil B) l = [].
Proof. induction l as [|a l IH]; [reflexivity | exact IH]. Qed.

(** Calls that delete none of the objects named before leave the shaders
    alive before alive. *)
Lemma live_shaders_app (old new : list call) :
  (forall c s, In c old -> In (deleteShader s) new -> ~ In s (named c)) ->
  live_shaders (old ++ new)
  = live_shaders old
    ++ flat_map
         (fun c => match c with
                   | createShader_ _ s =>
                       if deleted (old ++ new) s then [] else [s]
                   | _ => []
                   end)
         new.
Proof.
  intros Hfresh. unfold live_shaders at 1. rewrite flat_map_app. f_equal.
  unfold live_shaders. apply flat_map_agree. intros c Hc.
  destruct c as [t s| | | | | | |]; try reflexivity.
  unfold deleted. rewrite existsb_app.
  replace (existsb _ new) with false; [now rewrite orb_false_r|].
  symmetry. apply not_true_is_false. intros E.
  apply existsb_exists in E as (d & Hd & Hds).
  destruct d as [| | |s'| | | |]; try discriminate.
  apply Nat.eqb_eq in Hds. subst s'.
  apply (Hfresh _ _ Hc Hd). now left.
Qed.

(** Calls that neither create nor delete a shader change nothing of the
    shaders alive. *)
Lemma live_shaders_app_other (old new : list call) :
  (forall c, In c new ->
     match c with createShader_ _ _ | deleteShader _ => False | _ => True end) ->
  live_shaders (old ++ new) = live_shaders old.
Proof.
  intros Hnew. rewrite live_shaders_app.
  - rewrite <- (app_nil_r (live_shaders old)) at 2. f_equal.
    rewrite (@flat_map_agree _ _ _ (fun _ => [])).
    + apply flat_map_none.
    + intros c Hc. specialize (Hnew c Hc). now destruct c.
  - intros c s _ Hs. now apply Hnew in Hs.
Qed.

Lemma programs_app (old new : list call) :
  programs (old ++ new) = programs old ++ programs new.
Proof. unfold programs. apply flat_map_app. Qed.

Lemma fresh_below (gl : context) (c : call) (h : handle) :
  fresh gl -> In c (calls gl) -> In h (named c) -> h < next gl.
Proof.
  unfold fresh. rewrite Forall_forall. intros H Hc Hh.
  specialize (H c Hc). rewrite Forall_forall in H. now apply H.
Qed.

Lemma fresh_extend (gl : context) (new : list call) :
  fresh gl ->
  Forall (fun c => Forall (fun h => h < S (next gl)) (named c)) new ->
  fresh (Context (S (next gl)) (calls gl ++ new)).
Proof.
  unfold fresh; cbn [next calls]. intros H Hnew.
  apply Forall_app. split; [|exact Hnew].
  eapply Forall_impl; [|exact H]. cbn beta. intros c Hc.
  eapply Forall_impl; [|exact Hc]. cbn beta. intros h Hh. lia.
Qed.

(** X17: [createShader] never leaves a shader behind that it does not
    return.  When the driver reports the compilation as failed it returns
    null, after one [console.error] with the driver's info log and the
    deletion of the shader it created, and the shaders alive are those
    alive before; when the driver reports success it returns the new
    shader, which is alive, and logs and deletes nothing.  It creates no
    program. *)
Theorem createShader_no_leak (type : shader_type) (source : string)
    (gl : context) :
  fresh gl ->
  let shader := next gl in
  let received :=
    calls gl ++ [createShader_ type shader; shaderSource shader source;
                 compileShader shader] in
  let (result, gl') :=
    createShader COMPILE_STATUS getShaderInfoLog type source gl in
  fresh gl'
  /\ programs (calls gl') = programs (calls gl)
  /\ if COMPILE_STATUS received shader
     then result = Some shader
          /\ calls gl' = received
          /\ live_shaders (calls gl') = live_shaders (calls gl) ++ [shader]
     else result = None
          /\ calls gl'
             = received
               ++ [console_error "Shader compilation error:"
                                 (getShaderInfoLog received shader);
                   deleteShader shader]
          /\ live_shaders (calls gl') = live_shaders (calls gl).
Proof.
  intros Hf. cbv zeta. unfold createShader.
  destruct (COMPILE_STATUS _ (next gl)); cbn [negb].
  - split.
    { apply fresh_extend; [exact Hf|]. repeat constructor. }
    cbn [calls]. split.
    { rewrite programs_app. cbn. now rewrite app_nil_r. }
    split; [reflexivity|]. split; [reflexivity|].
    rewrite live_shaders_app.
    + f_equal. cbn [flat_map app]. unfold deleted. rewrite existsb_app.
      cbn [existsb orb]. rewrite orb_false_r.
      replace (existsb _ (calls gl)) with false; [reflexivity|].
      symmetry. apply not_true_is_false. intros E.
      apply existsb_exists in E as (d & Hd & Hds).
      destruct d as [| | |s'| | | |]; try discriminate.
      apply Nat.eqb_eq in Hds. subst s'.
      assert (next gl < next gl); [|lia].
      apply (@fresh_below gl _ _ Hf Hd). now left.
    + intros c s Hc Hs. cbn in Hs. intuition discriminate.
  - split.
    { rewrite <- app_assoc. apply fresh_extend; [exact Hf|]. repeat constructor. }
    cbn [calls]. split.
    { rewrite !programs_app. cbn. now rewrite !app_nil_r. }
    split; [reflexivity|]. split; [reflexivity|].
    rewrite <- app_assoc. rewrite live_shaders_app.
    + cbn [flat_map app]. unfold deleted. rewrite existsb_app.
      cbn [existsb orb]. rewrite Nat.eqb_refl, !orb_true_r.
      now rewrite app_nil_r.
    + intros c s Hc Hs Hin. cbn in Hs.
      destruct Hs as [Hs|[Hs|[Hs|[Hs|[Hs|[]]]]]]; try discriminate.
      injection Hs as <-.
      assert (next gl < next gl); [|lia].
      apply (@fresh_below gl _ _ Hf Hc Hin).
Qed.

(** X18: [createProgram] deletes nothing, and the program it creates stays
    however it ends.  With two shaders it attaches both and links; when
    the driver reports the link as failed it returns null after one
    [console.error] with the driver's info log, and otherwise the program.
    With null for a shader the [TypeError] of [attachShader] leaves it
    before anything is linked or logged. *)
Theorem createProgram_keeps_program (vertexShader fragmentShader : option handle)
    (gl : context) :
  fresh gl ->
  (forall h, vertexShader = Some h -> h < next gl) ->
  (forall h, fragmentShader = Some h -> h < next gl) ->
  let program := next gl in
  let (result, gl') :=
    createProgram LINK_STATUS getProgramInfoLog vertexShader fragmentShader gl in
  fresh gl'
  /\ programs (calls gl') = programs (calls gl) ++ [program]
  /\ live_shaders (calls gl') = live_shaders (calls gl)
  /\ match vertexShader, fragmentShader with
     | Some vs, Some fs =>
         let received :=
           calls gl ++ [createProgram_ program; attachShader program vs;
                        attachShader program fs; linkProgram program] in
         if LINK_STATUS received program
         then result = Returned (Some program) /\ calls gl' = received
         else result = Returned None
              /\ calls gl'
                 = received
                   ++ [console_error "Program linking error:"
                                     (getProgramInfoLog received program)]
     | Some vs, None =>
         result = Thrown_TypeError
         /\ calls gl' = calls gl ++ [createProgram_ program;
                                     attachShader program vs]
     | None, _ =>
         result = Thrown_TypeError
         /\ calls gl' = calls gl ++ [createProgram_ program]
     end.
Proof.
  intros Hf Hv Hfr. cbv zeta. unfold createProgram.
  destruct vertexShader as [vs|].
  2:{ split; [apply fresh_extend; [exact Hf|repeat constructor]|].
      cbn [calls]. split; [now rewrite programs_app|].
      split; [|split; reflexivity].
      apply live_shaders_app_other. intros c [<-|[]]. exact I. }
  specialize (Hv vs eq_refl).
  destruct fragmentShader as [fs|].
  2:{ rewrite <- app_assoc. cbn [app].
      split; [apply fresh_extend; [exact Hf|repeat constructor; lia]|].
      cbn [calls]. split; [now rewrite programs_app|].
      split; [|split; reflexivity].
      apply live_shaders_app_other. intros c [<-|[<-|[]]]; exact I. }
  specialize (Hfr fs eq_refl).
  rewrite <- !app_assoc. cbn [app].
  destruct (LINK_STATUS _ (next gl)); cbn [negb].
  - split; [apply fresh_extend; [exact Hf|repeat constructor; lia]|].
    cbn [calls]. split; [now rewrite programs_app|].
    split; [|split; reflexivity].
    apply live_shaders_app_other. intros c [<-|[<-|[<-|[<-|[]]]]]; exact I.
  - rewrite <- ?app_assoc. cbn [app].
    split; [apply fresh_extend; [exact Hf|repeat constructor; lia]|].
    cbn [calls]. split; [now rewrite programs_app|].
    split; [|split; reflexivity].
    apply live_shaders_app_other.
    intros c [<-|[<-|[<-|[<-|[<-|[]]]]]]; exact I.
Qed.

End SetupFacts.

Lemma createShader_no_leak_witness :
  let gl :=
    Setup.Context 1 [Setup.createShader_ Setup.VERTEX_SHADER 0;
                     Setup.shaderSource 0 "void main() {}";
                     Setup.compileShader 0] in
  let failed (received : list Setup.call) (shader : Setup.handle) := false in
  let log (received : list Setup.call) (shader : Setup.handle) :=
    "syntax error"%string in
  let (result, gl') :=
    Setup.createShader failed log Setup.FRAGMENT_SHADER "void main() {" gl in
  result = None
  /\ Setup.calls gl'
     = Setup.calls gl
       ++ [Setup.createShader_ Setup.FRAGMENT_SHADER 1;
           Setup.shaderSource 1 "void main() {";
           Setup.compileShader 1;
           Setup.console_error "Shader compilation error:" "syntax error";
           Setup.deleteShader 1]
  /\ Setup.live_shaders (Setup.calls gl') = [0%nat].
Proof.
  pose proof (@createShader_no_leak (fun _ _ => false)
                (fun _ _ => "syntax error"%string)
                Setup.FRAGMENT_SHADER "void main() {"
                (Setup.Context 1 [Setup.createShader_ Setup.VERTEX_SHADER 0;
                                  Setup.shaderSource 0 "void main() {}";
                                  Setup.compileShader 0])) as H.
  cbv beta iota zeta delta [Setup.createShader negb Setup.next Setup.calls] in H |- *.
  destruct H as (_ & _ & Hr & Hc & Hl).
  - repeat constructor.
  - repeat split; assumption.
Defined.

Lemma createProgram_keeps_program_witness :
  let gl :=
    Setup.Context 2 [Setup.createShader_ Setup.VERTEX_SHADER 0;
                     Setup.createShader_ Setup.FRAGMENT_SHADER 1] in
  let failed (received : list Setup.call) (program : Setup.handle) := false in
  let log (received : list Setup.call) (program : Setup.handle) :=
    "varying mismatch"%string in
  let (result, gl') :=
    Setup.createProgram failed log (Some 0%nat) (Some 1%nat) gl in
  result = Setup.Returned None
  /\ Setup.programs (Setup.calls gl') = [2%nat]
  /\ Setup.live_shaders (Setup.calls gl') = [0%nat; 1%nat].
Proof.
  pose proof (@createProgram_keeps_program (fun _ _ => false)
                (fun _ _ => "varying mismatch"%string)
                (Some 0%nat) (Some 1%nat)
                (Setup.Context 2 [Setup.createShader_ Setup.VERTEX_SHADER 0;
                                  Setup.createShader_ Setup.FRAGMENT_SHADER 1]))
    as H.
  cbv beta iota zeta delta [Setup.createProgram negb Setup.next Setup.calls] in H |- *.
  destruct H as (_ & Hp & Hl & Hr & _).
  - repeat constructor.
  - intros h [= <-]. lia.
  - intros h [= <-]. lia.
  - repeat split; assumption.
Defined.
